(** * Array interop layer of the ISA Python binding

    A shallow embedding of [src/code/isa/src/pyutils.cpp]: the two routines
    [PyArray_FromMatrixXf] (native matrix to NumPy array) and
    [PyArray_ToMatrixXf] (NumPy array to native matrix), over an explicit
    block memory, together with the properties of the specification that
    concern them. *)

From Stdlib Require Import ZArith String Ascii.
From stdpp Require Import base numbers option list gmap.

Local Open Scope Z_scope.
Local Open Scope nat_scope.

(** ** Memory

    Memory is a finite map from block addresses to arrays of float cells.
    A pointer returned by [mat.data()] or [PyArray_DATA(array)] is the address
    of a block; [p[i]] is cell [i] of that block.  A cell is [None] while it
    is uninitialised. The element type itself is a parameter: both routines
    only copy elements. *)

Abbreviation loc := positive (only parsing).

Section Interop.

Context {float : Type}.

Abbreviation cell := (option float) (only parsing).
Abbreviation heap := (gmap positive (list (option float))) (only parsing).

(** [class Exception] of [exception.h]: an exception that carries a message. *)
Inductive Exception : Type :=
| mkException (what : string).

(** The three ways a call can end: it returns, it throws, or it leaves the
    defined behaviour of C++ (an access outside of a block). *)
Inductive outcome (A : Type) : Type :=
| Return (a : A) (h : heap)
| Throw (e : Exception) (h : heap)
| Undefined.

Arguments Return {A} a h.
Arguments Throw {A} e h.
Arguments Undefined {A}.

Definition M (A : Type) : Type := heap -> outcome A.

Definition ret {A} (a : A) : M A := fun h => Return a h.

Definition bind {A B} (c : M A) (k : A -> M B) : M B :=
  fun h =>
    match c h with
    | Return a h' => k a h'
    | Throw e h' => Throw e h'
    | Undefined => Undefined
    end.

Definition throw {A} (e : Exception) : M A := fun h => Throw e h.

Definition undefined {A} : M A := fun _ => Undefined.

Notation "x <- c1 ;; c2" := (bind c1 (fun x => c2))
  (at level 62, c1 at next level, right associativity).
Notation "c1 ;;; c2" := (bind c1 (fun _ => c2))
  (at level 62, right associativity).

(** A new block of [n] uninitialised cells, at an address not in use. *)
Definition new_block (n : nat) : M loc :=
  fun h => let p := fresh (dom h) in Return p (<[p := replicate n None]> h).

(** [p[i]] read. *)
Definition load (p : loc) (i : nat) : M cell :=
  fun h =>
    match h !! p ≫= (fun b => b !! i) with
    | Some c => Return c h
    | None => Undefined
    end.

(** [p[i] = c]. *)
Definition store (p : loc) (i : nat) (c : cell) : M unit :=
  fun h =>
    match h !! p with
    | Some b =>
        if decide (i < length b) then Return tt (<[p := <[i := c]> b]> h)
        else Undefined
    | None => Undefined
    end.

(** The largest [int] (32 bits). *)
Definition INT_MAX : Z := 2147483647.

(** [for (int i = from; i < bound; ++i) body(i)] with [n] rounds to go, the
    bound being a 64-bit size. The counter is an [int]: after the body,
    [++i] at [INT_MAX] is a signed overflow, which is undefined. *)
Fixpoint for_loop (from n : nat) (body : nat -> M unit) : M unit :=
  match n with
  | O => ret tt
  | S n' =>
      body from ;;;
      if (Z.of_nat from <? INT_MAX)%Z then for_loop (S from) n' body
      else undefined
  end.

(** ** NumPy (external): the part of the C API that the routines use *)

(** [enum NPY_TYPES], the built-in element types. *)
Inductive NPY_TYPES : Type :=
| NPY_BOOL | NPY_BYTE | NPY_UBYTE | NPY_SHORT | NPY_USHORT
| NPY_INT | NPY_UINT | NPY_LONG | NPY_ULONG | NPY_LONGLONG | NPY_ULONGLONG
| NPY_FLOAT | NPY_DOUBLE | NPY_LONGDOUBLE
| NPY_CFLOAT | NPY_CDOUBLE | NPY_CLONGDOUBLE
| NPY_OBJECT | NPY_STRING | NPY_UNICODE | NPY_VOID
| NPY_DATETIME | NPY_TIMEDELTA | NPY_HALF.

Global Instance NPY_TYPES_eq_dec : EqDecision NPY_TYPES.
Proof. solve_decision. Defined.

(** [PyArray_Descr]: the fields read here are the type number and the type
    character ([enum NPY_TYPECHAR]). *)
Record PyArray_Descr : Type := {
  type_num : NPY_TYPES;
  type : ascii
}.

Definition PyArray_DescrFromType (t : NPY_TYPES) : PyArray_Descr :=
  {| type_num := t;
     type := match t with
             | NPY_BOOL => "?" | NPY_BYTE => "b" | NPY_UBYTE => "B"
             | NPY_SHORT => "h" | NPY_USHORT => "H"
             | NPY_INT => "i" | NPY_UINT => "I"
             | NPY_LONG => "l" | NPY_ULONG => "L"
             | NPY_LONGLONG => "q" | NPY_ULONGLONG => "Q"
             | NPY_FLOAT => "f" | NPY_DOUBLE => "d" | NPY_LONGDOUBLE => "g"
             | NPY_CFLOAT => "F" | NPY_CDOUBLE => "D" | NPY_CLONGDOUBLE => "G"
             | NPY_OBJECT => "O" | NPY_STRING => "S" | NPY_UNICODE => "U"
             | NPY_VOID => "V"
             | NPY_DATETIME => "M" | NPY_TIMEDELTA => "m" | NPY_HALF => "e"
             end%char |}.

(** Array flags ([ndarraytypes.h]). *)
Definition NPY_C_CONTIGUOUS : Z := 0x0001.
Definition NPY_F_CONTIGUOUS : Z := 0x0002.
Definition NPY_OWNDATA : Z := 0x0004.
Definition NPY_ALIGNED : Z := 0x0100.
Definition NPY_WRITEABLE : Z := 0x0400.
Definition NPY_DEFAULT : Z :=
  Z.lor NPY_C_CONTIGUOUS (Z.lor NPY_ALIGNED NPY_WRITEABLE).

(** [PyArrayObject]: data pointer, rank, shape, element type, flags. The data
    pointer is the address of the block that holds the elements. *)
Record PyArrayObject : Type := {
  ob_data : loc;
  ob_nd : nat;
  ob_dimensions : list nat;
  ob_descr : NPY_TYPES;
  ob_flags : Z
}.

Definition PyArray_DATA (a : PyArrayObject) : loc := ob_data a.
Definition PyArray_NDIM (a : PyArrayObject) : nat := ob_nd a.
Definition PyArray_DIM (a : PyArrayObject) (i : nat) : nat :=
  nth i (ob_dimensions a) 0.
Definition PyArray_DESCR (a : PyArrayObject) : PyArray_Descr :=
  PyArray_DescrFromType (ob_descr a).
Definition PyArray_FLAGS (a : PyArrayObject) : Z := ob_flags a.

(** The C condition [flags & bit]. *)
Definition flag_set (flags bit : Z) : bool := negb (Z.land flags bit =? 0)%Z.

(** [PyArray_New(&PyArray_Type, nd, dims, type_num, 0, 0, itemsize, flags, 0)]
    with no strides and no data given: NumPy allocates the element memory
    itself, uninitialised, and the new array owns it. In that case NumPy's
    constructor ([PyArray_NewFromDescr]) reads the [flags] argument as a truth
    value: the array starts with the default flags, and [if (flags)] it is
    laid out in Fortran order, [NPY_F_CONTIGUOUS] is set and, for [nd > 1],
    [NPY_C_CONTIGUOUS] is cleared. The C-API reference states it: "If data is
    NULL, then new memory will be allocated and flags can be non-zero to
    indicate a Fortran-style contiguous array"; NumPy's own [PyArray_Empty]
    and [PyArray_Zeros] pass their [is_f_order] truth value in this position,
    and [PyArray_SimpleNew] passes 0 for C order. Which bit is set in a
    non-zero [flags] makes no difference. Allocation is taken to succeed. *)
Definition PyArray_New (nd : nat) (dims : list nat) (t : NPY_TYPES) (flags : Z)
  : M PyArrayObject :=
  p <- new_block (foldr Nat.mul 1 (take nd dims)) ;;
  let fl0 := Z.lor NPY_DEFAULT NPY_OWNDATA in
  let fl :=
    if (flags =? 0)%Z then fl0
    else
      let fl1 := Z.lor fl0 NPY_F_CONTIGUOUS in
      if 1 <? nd then Z.ldiff fl1 NPY_C_CONTIGUOUS else fl1 in
  ret {| ob_data := p; ob_nd := nd; ob_dimensions := take nd dims;
         ob_descr := t; ob_flags := fl |}.

(** ** Eigen (external): dense float matrices and maps over raw memory *)

Inductive StorageOrder : Type := ColMajor | RowMajor.

(** The offset of coefficient [(i, j)] in the storage of a [rows] x [cols]
    matrix, and the coefficient that storage slot [k] holds. *)
Definition coeff_offset (o : StorageOrder) (rows cols i j : nat) : nat :=
  match o with
  | ColMajor => j * rows + i
  | RowMajor => i * cols + j
  end.

Definition slot_row (o : StorageOrder) (rows cols k : nat) : nat :=
  match o with
  | ColMajor => k mod rows
  | RowMajor => k / cols
  end.

Definition slot_col (o : StorageOrder) (rows cols k : nat) : nat :=
  match o with
  | ColMajor => k / rows
  | RowMajor => k mod cols
  end.

(** [MatrixXf]: an owning matrix; its storage is a block of its own, in the
    default storage order of the build. *)
Record MatrixXf : Type := {
  m_data : loc;
  m_rows : nat;
  m_cols : nat
}.

Definition rows (mat : MatrixXf) : nat := m_rows mat.
Definition cols (mat : MatrixXf) : nat := m_cols mat.
Definition size (mat : MatrixXf) : nat := m_rows mat * m_cols mat.
Definition data (mat : MatrixXf) : loc := m_data mat.

(** [Map<Matrix<float, Dynamic, Dynamic, Order> >(ptr, rows, cols)]: a view
    of the memory at [ptr]; it owns nothing. *)
Record Map : Type := {
  map_order : StorageOrder;
  map_data : loc;
  map_rows : nat;
  map_cols : nat
}.

(** The build constant: [true] when [EIGEN_DEFAULT_TO_ROW_MAJOR] is defined. *)
Variable EIGEN_DEFAULT_TO_ROW_MAJOR : bool.

Definition DefaultOrder : StorageOrder :=
  if EIGEN_DEFAULT_TO_ROW_MAJOR then RowMajor else ColMajor.

(** The conversion of a [Map] to the [MatrixXf] that a function returns by
    value: Eigen's copy constructor allocates storage for the new matrix and
    assigns coefficient by coefficient, [(i, j)] of the map to [(i, j)] of
    the matrix. Reading outside of the mapped block is undefined. *)
Definition MatrixXf_of_Map (m : Map) : M MatrixXf :=
  fun h =>
    let r := map_rows m in
    let c := map_cols m in
    let src k :=
      h !! map_data m ≫= fun b =>
        b !! coeff_offset (map_order m) r c
               (slot_row DefaultOrder r c k) (slot_col DefaultOrder r c k) in
    match mapM src (seq 0 (r * c)) with
    | Some l =>
        let p := fresh (dom h) in
        Return {| m_data := p; m_rows := r; m_cols := c |} (<[p := l]> h)
    | None => Undefined
    end.

(** ** The routines of [pyutils.cpp] *)

Definition PyArray_FromMatrixXf (mat : MatrixXf) : M PyArrayObject :=
  let dims := [rows mat; cols mat] in
  array <- PyArray_New 2 dims NPY_FLOAT
             (if EIGEN_DEFAULT_TO_ROW_MAJOR then NPY_C_CONTIGUOUS
              else NPY_F_CONTIGUOUS) ;;
  let data := data mat in
  let dataCopy := PyArray_DATA array in
  for_loop 0 (size mat) (fun i => c <- load data i ;; store dataCopy i c) ;;;
  ret array.

Definition PyArray_ToMatrixXf (array : PyArrayObject) : M MatrixXf :=
  if negb (Ascii.eqb (type (PyArray_DESCR array))
                     (type (PyArray_DescrFromType NPY_FLOAT)))
  then throw (mkException "Can only handle arrays of float values.")
  else if PyArray_NDIM array =? 1 then
    if flag_set (PyArray_FLAGS array) NPY_F_CONTIGUOUS then
      MatrixXf_of_Map {| map_order := ColMajor; map_data := PyArray_DATA array;
                         map_rows := PyArray_DIM array 0; map_cols := 1 |}
    else if flag_set (PyArray_FLAGS array) NPY_C_CONTIGUOUS then
      MatrixXf_of_Map {| map_order := RowMajor; map_data := PyArray_DATA array;
                         map_rows := PyArray_DIM array 0; map_cols := 1 |}
    else throw (mkException "Data must be stored in contiguous memory.")
  else if PyArray_NDIM array =? 2 then
    if flag_set (PyArray_FLAGS array) NPY_F_CONTIGUOUS then
      MatrixXf_of_Map {| map_order := ColMajor; map_data := PyArray_DATA array;
                         map_rows := PyArray_DIM array 0;
                         map_cols := PyArray_DIM array 1 |}
    else if flag_set (PyArray_FLAGS array) NPY_C_CONTIGUOUS then
      MatrixXf_of_Map {| map_order := RowMajor; map_data := PyArray_DATA array;
                         map_rows := PyArray_DIM array 0;
                         map_cols := PyArray_DIM array 1 |}
    else throw (mkException "Data must be stored in contiguous memory.")
  else throw (mkException "Can only handle one- or two-dimensional arrays.").

(** ** What the specification calls things

    The layout that the flags of a buffer announce (Fortran order is looked
    at first), its shape as a matrix (a one-dimensional buffer is one
    column), and the three conversion failures of the error taxonomy. *)

Definition buffer_order (a : PyArrayObject) : option StorageOrder :=
  if flag_set (ob_flags a) NPY_F_CONTIGUOUS then Some ColMajor
  else if flag_set (ob_flags a) NPY_C_CONTIGUOUS then Some RowMajor
  else None.

Definition buffer_rows (a : PyArrayObject) : nat := PyArray_DIM a 0.

Definition buffer_cols (a : PyArrayObject) : nat :=
  if ob_nd a =? 1 then 1 else PyArray_DIM a 1.

Inductive Violation : Type :=
| TypeMismatch | DimensionalityMismatch | ContiguityViolation.

Definition violation (a : PyArrayObject) : option Violation :=
  if decide (ob_descr a = NPY_FLOAT) then
    if decide (ob_nd a = 1 \/ ob_nd a = 2) then
      match buffer_order a with
      | Some _ => None
      | None => Some ContiguityViolation
      end
    else Some DimensionalityMismatch
  else Some TypeMismatch.

Definition message (v : Violation) : string :=
  match v with
  | TypeMismatch => "Can only handle arrays of float values."
  | DimensionalityMismatch => "Can only handle one- or two-dimensional arrays."
  | ContiguityViolation => "Data must be stored in contiguous memory."
  end.

(** The flags of the array that [PyArray_FromMatrixXf] allocates. *)
Definition host_flags : Z :=
  Z.ldiff (Z.lor (Z.lor NPY_DEFAULT NPY_OWNDATA) NPY_F_CONTIGUOUS)
          NPY_C_CONTIGUOUS.

(** ** Sample inputs

    Elements are written as integers; they stand for float values. *)

(** The matrix [[1, 2], [3, 4]] of a row-major build: storage 1 2 3 4. *)
Definition heap_rm : gmap positive (list (option Z)) :=
  {[ 1%positive := [Some 1; Some 2; Some 3; Some 4]%Z ]}.
Definition mat_rm : MatrixXf := {| m_data := 1; m_rows := 2; m_cols := 2 |}.

(** A C-contiguous 2 x 2 float32 array [[1, 2], [3, 4]] that owns its data. *)
Definition heap_c : gmap positive (list (option Z)) :=
  {[ 1%positive := [Some 1; Some 2; Some 3; Some 4]%Z ]}.
Definition array_c : PyArrayObject :=
  {| ob_data := 1; ob_nd := 2; ob_dimensions := [2; 2];
     ob_descr := NPY_FLOAT;
     ob_flags := Z.lor NPY_DEFAULT NPY_OWNDATA |}.

(** A float32 vector of three elements, flagged both ways. *)
Definition heap_v : gmap positive (list (option Z)) :=
  {[ 4%positive := [Some 7; Some 8; Some 9]%Z ]}.
Definition array_v : PyArrayObject :=
  {| ob_data := 4; ob_nd := 1; ob_dimensions := [3];
     ob_descr := NPY_FLOAT;
     ob_flags := Z.lor (Z.lor NPY_DEFAULT NPY_OWNDATA) NPY_F_CONTIGUOUS |}.

(** A float64 array, a float32 array of rank 3, a float32 slice that is not
    contiguous, and an empty 0 x 3 float32 array and matrix. *)
Definition array_double : PyArrayObject :=
  {| ob_data := 1; ob_nd := 2; ob_dimensions := [2; 2];
     ob_descr := NPY_DOUBLE; ob_flags := Z.lor NPY_DEFAULT NPY_OWNDATA |}.
Definition array_rank3 : PyArrayObject :=
  {| ob_data := 1; ob_nd := 3; ob_dimensions := [2; 2; 1];
     ob_descr := NPY_FLOAT; ob_flags := Z.lor NPY_DEFAULT NPY_OWNDATA |}.
Definition array_slice : PyArrayObject :=
  {| ob_data := 1; ob_nd := 2; ob_dimensions := [2; 1];
     ob_descr := NPY_FLOAT; ob_flags := Z.lor NPY_ALIGNED NPY_WRITEABLE |}.
Definition array_empty : PyArrayObject :=
  {| ob_data := 1; ob_nd := 2; ob_dimensions := [0; 3];
     ob_descr := NPY_FLOAT;
     ob_flags := Z.lor (Z.lor NPY_DEFAULT NPY_OWNDATA) NPY_F_CONTIGUOUS |}.
Definition heap_empty : gmap positive (list (option Z)) :=
  {[ 1%positive := [] ]}.
Definition mat_empty : MatrixXf := {| m_data := 1; m_rows := 0; m_cols := 3 |}.

(** The 2 x 3 matrix [[1, 2, 3], [4, 5, 6]] three times: block 1 holds it in
    C order and block 2 in Fortran order; [array_23c] and [array_23f] are the
    two arrays over them, and [array_32t] is the transposed view of
    [array_23c] (shape 3 x 2, Fortran order, same data, not owning it). *)
Definition heap_23 : gmap positive (list (option Z)) :=
  {[ 1%positive := [Some 1; Some 2; Some 3; Some 4; Some 5; Some 6]%Z;
     2%positive := [Some 1; Some 4; Some 2; Some 5; Some 3; Some 6]%Z ]}.
Definition array_23c : PyArrayObject :=
  {| ob_data := 1; ob_nd := 2; ob_dimensions := [2; 3];
     ob_descr := NPY_FLOAT; ob_flags := Z.lor NPY_DEFAULT NPY_OWNDATA |}.
Definition array_23f : PyArrayObject :=
  {| ob_data := 2; ob_nd := 2; ob_dimensions := [2; 3];
     ob_descr := NPY_FLOAT;
     ob_flags := Z.lor NPY_F_CONTIGUOUS
                   (Z.lor NPY_OWNDATA (Z.lor NPY_ALIGNED NPY_WRITEABLE)) |}.
Definition array_32t : PyArrayObject :=
  {| ob_data := 1; ob_nd := 2; ob_dimensions := [3; 2];
     ob_descr := NPY_FLOAT;
     ob_flags := Z.lor NPY_F_CONTIGUOUS (Z.lor NPY_ALIGNED NPY_WRITEABLE) |}.

(** A row vector 5 6 7 as a 1 x 3 matrix. *)
Definition heap_row : gmap positive (list (option Z)) :=
  {[ 2%positive := [Some 5; Some 6; Some 7]%Z ]}.
Definition mat_row : MatrixXf := {| m_data := 2; m_rows := 1; m_cols := 3 |}.

(** The vector 7 8 9 of [heap_v] again, as a two-dimensional C-contiguous
    array of shape 3 x 1 over the same data. *)
Definition array_v31 : PyArrayObject :=
  {| ob_data := 4; ob_nd := 2; ob_dimensions := [3; 1];
     ob_descr := NPY_FLOAT; ob_flags := Z.lor NPY_ALIGNED NPY_C_CONTIGUOUS |}.

(** A column vector of 2^31 elements, one more than [INT_MAX]. *)
Definition mat_huge : MatrixXf :=
  {| m_data := 1; m_rows := Z.to_nat 2147483648; m_cols := 1 |}.

(** * Properties *)

(** ** Index arithmetic of the two storage orders *)

Lemma coeff_offset_lt o r c i j : i < r -> j < c -> coeff_offset o r c i j < r * c.
Proof. destruct o; simpl; nia. Qed.

Lemma slot_row_lt o r c k : k < r * c -> slot_row o r c k < r.
Proof.
  intros Hk. destruct o; simpl.
  - apply Nat.mod_upper_bound. lia.
  - apply Nat.Div0.div_lt_upper_bound. lia.
Qed.

Lemma slot_col_lt o r c k : k < r * c -> slot_col o r c k < c.
Proof.
  intros Hk. destruct o; simpl.
  - apply Nat.Div0.div_lt_upper_bound. lia.
  - apply Nat.mod_upper_bound. lia.
Qed.

Lemma coeff_offset_slot o r c k :
  k < r * c -> coeff_offset o r c (slot_row o r c k) (slot_col o r c k) = k.
Proof.
  intros Hk. destruct o; simpl.
  - pose proof (Nat.div_mod_eq k r). lia.
  - pose proof (Nat.div_mod_eq k c). lia.
Qed.

Lemma slot_row_coeff_offset o r c i j :
  i < r -> j < c -> slot_row o r c (coeff_offset o r c i j) = i.
Proof.
  intros Hi Hj. destruct o; simpl.
  - rewrite Nat.add_comm, Nat.Div0.mod_add. by apply Nat.mod_small.
  - rewrite Nat.div_add_l by lia. rewrite Nat.div_small; lia.
Qed.

Lemma slot_col_coeff_offset o r c i j :
  i < r -> j < c -> slot_col o r c (coeff_offset o r c i j) = j.
Proof.
  intros Hi Hj. destruct o; simpl.
  - rewrite Nat.div_add_l by lia. rewrite Nat.div_small; lia.
  - rewrite Nat.add_comm, Nat.Div0.mod_add. by apply Nat.mod_small.
Qed.

(** ** The copy loop *)

Lemma for_loop_copy (src dst : loc) (l : list cell) :
  src <> dst ->
  forall n from (d : list cell) (h : heap),
    h !! src = Some l -> h !! dst = Some d ->
    from + n <= length l -> from + n <= length d ->
    (Z.of_nat (from + n) <= INT_MAX)%Z ->
    for_loop from n (fun i => c <- load src i ;; store dst i c) h
    = Return tt
        (<[dst := take from d ++ take n (drop from l) ++ drop (from + n) d]> h).
Proof.
  intros Hne n. induction n as [|n IH]; intros from d h Hsrc Hdst Hl Hd Hi.
  - simpl. unfold ret. f_equal. rewrite Nat.add_0_r, take_drop.
    by rewrite insert_id.
  - destruct (lookup_lt_is_Some_2 l from) as [c Hc]; [lia|].
    cbn [for_loop]. unfold bind at 1. unfold bind at 1.
    unfold load at 1. rewrite Hsrc. simpl. rewrite Hc.
    unfold store at 1. rewrite Hdst.
    destruct (decide (from < length d)) as [_|]; [|lia].
    assert (Hnext : (Z.of_nat from <? INT_MAX)%Z = true)
      by (apply Z.ltb_lt; lia).
    rewrite Hnext.
    rewrite (IH (S from) (<[from := c]> d)).
    + f_equal. rewrite insert_insert_eq. f_equal.
      rewrite (take_S_r _ _ c) by (apply list_lookup_insert_eq; lia).
      rewrite take_insert_ge by lia.
      rewrite (drop_S l c from Hc). cbn [take].
      rewrite drop_insert_lt by lia.
      rewrite <- app_assoc. simpl. by rewrite Nat.add_succ_r.
    + by rewrite lookup_insert_ne.
    + by rewrite lookup_insert_eq.
    + lia.
    + rewrite length_insert. lia.
    + lia.
Qed.

(** ** Eigen's copy out of a map *)

Lemma MatrixXf_of_Map_spec (m : Map) (h : heap) (b : list cell) :
  h !! map_data m = Some b ->
  map_rows m * map_cols m <= length b ->
  exists l : list cell,
    MatrixXf_of_Map m h
    = Return {| m_data := fresh (dom h); m_rows := map_rows m;
                m_cols := map_cols m |}
             (<[fresh (dom h) := l]> h)
    /\ length l = map_rows m * map_cols m
    /\ forall k, k < map_rows m * map_cols m ->
         l !! k = b !! coeff_offset (map_order m) (map_rows m) (map_cols m)
                     (slot_row DefaultOrder (map_rows m) (map_cols m) k)
                     (slot_col DefaultOrder (map_rows m) (map_cols m) k).
Proof.
  intros Hb Hlen. unfold MatrixXf_of_Map. cbv zeta.
  set (r := map_rows m) in *. set (c := map_cols m) in *.
  set (src := fun k : nat => h !! map_data m ≫= _).
  assert (Hsrc : forall k, k < r * c ->
            src k = b !! coeff_offset (map_order m) r c
                           (slot_row DefaultOrder r c k)
                           (slot_col DefaultOrder r c k)).
  { intros k Hk. unfold src. by rewrite Hb. }
  destruct (mapM_is_Some_2 src (seq 0 (r * c))) as [l Hl].
  { apply Forall_forall. intros k Hk%elem_of_seq. unfold compose.
    rewrite Hsrc by lia. apply lookup_lt_is_Some_2.
    pose proof (coeff_offset_lt (map_order m) r c _ _
                  (slot_row_lt DefaultOrder r c k ltac:(lia))
                  (slot_col_lt DefaultOrder r c k ltac:(lia))).
    lia. }
  exists l. rewrite Hl. split; [done|].
  pose proof (length_mapM _ _ _ Hl) as Hlen'. rewrite length_seq in Hlen'.
  split; [done|]. intros k Hk.
  apply mapM_Some in Hl.
  destruct (Forall2_lookup_l _ _ _ k k Hl) as (y & Hy & Hsy).
  { by apply lookup_seq_lt. }
  rewrite Hy, <- Hsy. by apply Hsrc.
Qed.

Lemma MatrixXf_of_Map_empty (m : Map) (h : heap) :
  map_rows m * map_cols m = 0 ->
  MatrixXf_of_Map m h
  = Return {| m_data := fresh (dom h); m_rows := map_rows m;
              m_cols := map_cols m |}
           (<[fresh (dom h) := []]> h).
Proof. intros H0. unfold MatrixXf_of_Map. cbv zeta. by rewrite H0. Qed.

Lemma MatrixXf_of_Map_no_throw (m : Map) (h h' : heap) (e : Exception) :
  MatrixXf_of_Map m h <> Throw e h'.
Proof. unfold MatrixXf_of_Map. cbv zeta. by destruct (mapM _ _). Qed.

(** ** The two routines on well-formed input *)

(** A buffer that passes the three checks is read through a map of its
    flagged layout. *)
Lemma PyArray_ToMatrixXf_valid (a : PyArrayObject) (o : StorageOrder) :
  ob_descr a = NPY_FLOAT ->
  ob_nd a = 1 \/ ob_nd a = 2 ->
  buffer_order a = Some o ->
  PyArray_ToMatrixXf a
  = MatrixXf_of_Map {| map_order := o; map_data := ob_data a;
                       map_rows := buffer_rows a; map_cols := buffer_cols a |}.
Proof.
  intros Ht Hnd Ho. unfold PyArray_ToMatrixXf, PyArray_DESCR, PyArray_NDIM,
    PyArray_FLAGS, PyArray_DATA, buffer_rows, buffer_cols.
  rewrite Ht. simpl negb. cbv iota. unfold buffer_order in Ho.
  destruct Hnd as [-> | ->]; simpl;
    destruct (flag_set (ob_flags a) NPY_F_CONTIGUOUS);
    [ by simplify_eq | | by simplify_eq | ];
    destruct (flag_set (ob_flags a) NPY_C_CONTIGUOUS); by simplify_eq.
Qed.

Lemma PyArray_FromMatrixXf_spec (mat : MatrixXf) (h : heap) (l : list cell) :
  h !! m_data mat = Some l ->
  length l = size mat ->
  (Z.of_nat (size mat) <= INT_MAX)%Z ->
  PyArray_FromMatrixXf mat h
  = Return {| ob_data := fresh (dom h); ob_nd := 2;
              ob_dimensions := [rows mat; cols mat];
              ob_descr := NPY_FLOAT; ob_flags := host_flags |}
           (<[fresh (dom h) := l]> h).
Proof.
  intros Hl Hlen Hint. unfold PyArray_FromMatrixXf, PyArray_New.
  set (p := fresh (dom h)).
  assert (Hp : m_data mat <> p).
  { intros Heq. pose proof (is_fresh (dom h)) as Hf. fold p in Hf.
    rewrite <- Heq in Hf. apply not_elem_of_dom in Hf. congruence. }
  unfold bind at 1. unfold bind at 1. unfold new_block. fold p. cbv zeta.
  unfold ret at 1. unfold bind at 1. unfold PyArray_DATA, data. simpl ob_data.
  assert (Hn : foldr Nat.mul 1 (take 2 [rows mat; cols mat]) = size mat).
  { unfold size, rows, cols. simpl. lia. }
  rewrite Hn.
  rewrite (for_loop_copy (m_data mat) p l Hp (size mat) 0
             (replicate (size mat) None)).
  - unfold ret. f_equal.
    + f_equal. by destruct EIGEN_DEFAULT_TO_ROW_MAJOR.
    + rewrite insert_insert_eq. f_equal.
      rewrite take_0, drop_0, Nat.add_0_l, app_nil_l.
      rewrite take_ge by lia.
      rewrite drop_ge by (rewrite length_replicate; lia).
      by rewrite app_nil_r.
  - by rewrite lookup_insert_ne.
  - by rewrite lookup_insert_eq.
  - lia.
  - rewrite length_replicate. lia.
  - done.
Qed.

Lemma buffer_order_contiguous (a : PyArrayObject) :
  flag_set (ob_flags a) NPY_F_CONTIGUOUS = true
  \/ flag_set (ob_flags a) NPY_C_CONTIGUOUS = true ->
  exists o, buffer_order a = Some o.
Proof.
  unfold buffer_order. intros [-> | ->]; [by eexists|].
  destruct (flag_set _ NPY_F_CONTIGUOUS); by eexists.
Qed.

Lemma column_offset o o' n k :
  k < n -> coeff_offset o n 1 (slot_row o' n 1 k) (slot_col o' n 1 k) = k.
Proof.
  intros Hk. destruct o, o'; unfold coeff_offset, slot_row, slot_col;
    rewrite ?Nat.div_1_r, ?Nat.mod_1_r, ?(Nat.div_small k n),
      ?(Nat.mod_small k n) by lia;
    lia.
Qed.

(** ** Rejections *)

(** C5: a buffer whose element type is not 32-bit float is rejected with the
    message that asks for float values; no matrix is returned and memory is
    as before. *)
Theorem type_mismatch_rejected (a : PyArrayObject) (h : heap) :
  ob_descr a <> NPY_FLOAT ->
  PyArray_ToMatrixXf a h
  = Throw (mkException "Can only handle arrays of float values.") h.
Proof.
  intros Ht. unfold PyArray_ToMatrixXf, PyArray_DESCR.
  by destruct (ob_descr a).
Qed.

(** C6: a float32 buffer whose rank is neither 1 nor 2 is rejected with the
    message that asks for one- or two-dimensional arrays; no matrix is
    returned. *)
Theorem rank_mismatch_rejected (a : PyArrayObject) (h : heap) :
  ob_descr a = NPY_FLOAT ->
  ob_nd a <> 1 -> ob_nd a <> 2 ->
  PyArray_ToMatrixXf a h
  = Throw (mkException "Can only handle one- or two-dimensional arrays.") h.
Proof.
  intros Ht H1 H2. unfold PyArray_ToMatrixXf, PyArray_DESCR, PyArray_NDIM.
  rewrite Ht. simpl negb. cbv iota.
  apply Nat.eqb_neq in H1, H2. by rewrite H1, H2.
Qed.

(** C7: a float32 buffer of rank 1 or 2 that is flagged neither Fortran- nor
    C-contiguous is rejected with the message that asks for contiguous
    memory; no matrix is returned. *)
Theorem non_contiguous_rejected (a : PyArrayObject) (h : heap) :
  ob_descr a = NPY_FLOAT ->
  ob_nd a = 1 \/ ob_nd a = 2 ->
  flag_set (ob_flags a) NPY_F_CONTIGUOUS = false ->
  flag_set (ob_flags a) NPY_C_CONTIGUOUS = false ->
  PyArray_ToMatrixXf a h
  = Throw (mkException "Data must be stored in contiguous memory.") h.
Proof.
  intros Ht Hnd HF HC.
  unfold PyArray_ToMatrixXf, PyArray_DESCR, PyArray_NDIM, PyArray_FLAGS.
  rewrite Ht, HF, HC. simpl negb. cbv iota.
  by destruct Hnd as [-> | ->].
Qed.

(** Each violation, found in the order type, rank, contiguity, makes the
    conversion throw the message of that violation and leave memory alone. *)
Lemma PyArray_ToMatrixXf_invalid (a : PyArrayObject) (v : Violation) (h : heap) :
  violation a = Some v ->
  PyArray_ToMatrixXf a h = Throw (mkException (message v)) h.
Proof.
  unfold violation, buffer_order, PyArray_ToMatrixXf, PyArray_DESCR,
    PyArray_NDIM, PyArray_FLAGS.
  destruct (decide (ob_descr a = NPY_FLOAT)) as [Ht|Ht].
  - rewrite Ht. simpl negb. cbv iota.
    destruct (decide (ob_nd a = 1 \/ ob_nd a = 2)) as [[Hnd|Hnd]|Hnd].
    + rewrite Hnd. simpl.
      destruct (flag_set _ NPY_F_CONTIGUOUS); [done|].
      destruct (flag_set _ NPY_C_CONTIGUOUS); [done|]. by intros [= <-].
    + rewrite Hnd. simpl.
      destruct (flag_set _ NPY_F_CONTIGUOUS); [done|].
      destruct (flag_set _ NPY_C_CONTIGUOUS); [done|]. by intros [= <-].
    + intros [= <-].
      destruct (Nat.eqb_spec (ob_nd a) 1); [tauto|].
      destruct (Nat.eqb_spec (ob_nd a) 2); [tauto|]. done.
  - intros [= <-]. by destruct (ob_descr a).
Qed.

(** X11: whenever the conversion fails, memory is exactly as it was before
    the call, and the exception carries the message of the one violation
    found (type, rank or contiguity); conversely every violation is reported
    so; the three messages differ from one another. *)
Theorem conversion_failures_named (a : PyArrayObject) (h : heap) :
  (forall e h',
     PyArray_ToMatrixXf a h = Throw e h'
     <-> exists v, violation a = Some v /\ e = mkException (message v) /\ h' = h)
  /\ (forall v w, message v = message w -> v = w).
Proof.
  split.
  - intros e h'. destruct (violation a) as [v|] eqn:Hv.
    + rewrite (PyArray_ToMatrixXf_invalid a v h Hv). split.
      * intros [= <- <-]. by exists v.
      * by intros (w & [= <-] & -> & ->).
    + split; [|by intros (w & ? & _)].
      intros H. exfalso. unfold violation in Hv.
      destruct (decide (ob_descr a = NPY_FLOAT)) as [Ht|]; [|done].
      destruct (decide (ob_nd a = 1 \/ ob_nd a = 2)) as [Hnd|]; [|done].
      destruct (buffer_order a) as [o|] eqn:Ho; [|done].
      rewrite (PyArray_ToMatrixXf_valid a o Ht Hnd Ho) in H.
      by apply MatrixXf_of_Map_no_throw in H.
  - by intros [] [].
Qed.

(** C10: the element type is checked first and the rank before contiguity:
    whatever the rank, shape and flags, a buffer that is not float32 fails
    with the type message, and whatever the flags, a float32 buffer of rank
    other than 1 and 2 fails with the rank message. *)
Theorem checks_in_order (p : loc) (nd : nat) (dims : list nat)
    (t : NPY_TYPES) (fl : Z) (h : heap) :
  (t <> NPY_FLOAT ->
   PyArray_ToMatrixXf
     {| ob_data := p; ob_nd := nd; ob_dimensions := dims; ob_descr := t;
        ob_flags := fl |} h
   = Throw (mkException "Can only handle arrays of float values.") h)
  /\ (t = NPY_FLOAT -> nd <> 1 -> nd <> 2 ->
      PyArray_ToMatrixXf
        {| ob_data := p; ob_nd := nd; ob_dimensions := dims; ob_descr := t;
           ob_flags := fl |} h
      = Throw (mkException "Can only handle one- or two-dimensional arrays.")
              h).
Proof.
  split.
  - intros Ht.
    apply (PyArray_ToMatrixXf_invalid _ TypeMismatch). unfold violation.
    simpl. by destruct (decide (t = NPY_FLOAT)).
  - intros Ht H1 H2.
    apply (PyArray_ToMatrixXf_invalid _ DimensionalityMismatch).
    unfold violation. simpl. destruct (decide (t = NPY_FLOAT)); [|done].
    destruct (decide (nd = 1 \/ nd = 2)); [tauto|done].
Qed.

(** ** Host array to native matrix *)

(** On a float32 buffer of rank 1 or 2 with a contiguity flag, whose block
    holds its elements, the conversion returns a matrix of the shape of the
    buffer in a block of its own; slot [k] of that block holds the
    coefficient that the flagged layout of the buffer assigns to the position
    of slot [k] in the default order. *)
Lemma PyArray_ToMatrixXf_spec (a : PyArrayObject) (o : StorageOrder)
    (h : heap) (b : list cell) :
  ob_descr a = NPY_FLOAT ->
  ob_nd a = 1 \/ ob_nd a = 2 ->
  buffer_order a = Some o ->
  h !! ob_data a = Some b ->
  buffer_rows a * buffer_cols a <= length b ->
  exists l : list cell,
    PyArray_ToMatrixXf a h
    = Return {| m_data := fresh (dom h); m_rows := buffer_rows a;
                m_cols := buffer_cols a |}
             (<[fresh (dom h) := l]> h)
    /\ length l = buffer_rows a * buffer_cols a
    /\ forall k, k < buffer_rows a * buffer_cols a ->
         l !! k = b !! coeff_offset o (buffer_rows a) (buffer_cols a)
                     (slot_row DefaultOrder (buffer_rows a) (buffer_cols a) k)
                     (slot_col DefaultOrder (buffer_rows a) (buffer_cols a) k).
Proof.
  intros Ht Hnd Ho Hb Hlen. rewrite (PyArray_ToMatrixXf_valid a o Ht Hnd Ho).
  exact (MatrixXf_of_Map_spec
           {| map_order := o; map_data := ob_data a;
              map_rows := buffer_rows a; map_cols := buffer_cols a |}
           h b Hb Hlen).
Qed.

(** C2 (as amended): on a valid buffer the conversion reads the buffer with
    its flagged layout and returns an owning matrix: the matrix lives in a
    block that was not in use, coefficient [(i, j)] of the matrix is
    element [(i, j)] of the buffer, the memory of the buffer is unchanged,
    and a later write through the buffer changes the buffer only, not the
    matrix. *)
Theorem PyArray_ToMatrixXf_copies (a : PyArrayObject) (o : StorageOrder)
    (h : heap) (b : list cell) :
  ob_descr a = NPY_FLOAT ->
  ob_nd a = 1 \/ ob_nd a = 2 ->
  buffer_order a = Some o ->
  h !! ob_data a = Some b ->
  length b = buffer_rows a * buffer_cols a ->
  exists (mat : MatrixXf) (l : list cell),
    PyArray_ToMatrixXf a h = Return mat (<[m_data mat := l]> h)
    /\ (m_data mat ∉ dom h)
    /\ m_data mat <> ob_data a
    /\ rows mat = buffer_rows a /\ cols mat = buffer_cols a
    /\ (forall i j, i < rows mat -> j < cols mat ->
          l !! coeff_offset DefaultOrder (rows mat) (cols mat) i j
          = b !! coeff_offset o (rows mat) (cols mat) i j)
    /\ (forall i c h2,
          store (ob_data a) i c (<[m_data mat := l]> h) = Return tt h2 ->
          h2 !! ob_data a = Some (<[i := c]> b) /\ h2 !! m_data mat = Some l).
Proof.
  intros Ht Hnd Ho Hb Hlen.
  destruct (PyArray_ToMatrixXf_spec a o h b Ht Hnd Ho Hb) as (l & Hrun & Hl & Hk);
    [lia|].
  set (p := fresh (dom h)) in *.
  assert (Hfresh : p ∉ dom h) by apply is_fresh.
  assert (Hp : p <> ob_data a).
  { intros Heq. apply not_elem_of_dom in Hfresh. congruence. }
  eexists _, l. split; [exact Hrun|]. simpl.
  split; [done|]. split; [done|]. split; [done|]. split; [done|]. split.
  - unfold rows, cols. simpl. intros i j Hi Hj.
    rewrite Hk by (by apply coeff_offset_lt).
    by rewrite slot_row_coeff_offset, slot_col_coeff_offset.
  - intros i c h2. unfold store. rewrite lookup_insert_ne by done. rewrite Hb.
    destruct (decide (i < length b)); [|done]. intros [= <-].
    rewrite lookup_insert_eq, lookup_insert_ne by done.
    by rewrite lookup_insert_eq.
Qed.

(** C4: a one-dimensional float32 buffer of length [N], flagged Fortran- or
    C-contiguous, converts to a matrix of [N] rows and one column that holds
    the elements of the buffer in order. *)
Theorem vector_is_column (a : PyArrayObject) (N : nat) (h : heap)
    (b : list cell) :
  ob_descr a = NPY_FLOAT ->
  ob_nd a = 1 ->
  ob_dimensions a = [N] ->
  flag_set (ob_flags a) NPY_F_CONTIGUOUS = true
  \/ flag_set (ob_flags a) NPY_C_CONTIGUOUS = true ->
  h !! ob_data a = Some b ->
  length b = N ->
  exists (mat : MatrixXf) (h' : heap),
    PyArray_ToMatrixXf a h = Return mat h'
    /\ rows mat = N /\ cols mat = 1
    /\ h' !! m_data mat = Some b.
Proof.
  intros Ht Hnd Hdims Hfl Hb Hlen.
  destruct (buffer_order_contiguous a Hfl) as [o Ho].
  assert (Hr : buffer_rows a = N).
  { unfold buffer_rows, PyArray_DIM. by rewrite Hdims. }
  assert (Hc : buffer_cols a = 1).
  { unfold buffer_cols. by rewrite Hnd. }
  destruct (PyArray_ToMatrixXf_spec a o h b Ht (or_introl Hnd) Ho Hb)
    as (l & Hrun & Hl & Hk); [rewrite Hr, Hc; lia|].
  rewrite Hr, Hc in *. rewrite Nat.mul_1_r in *.
  eexists _, _. split; [exact Hrun|]. split; [done|]. split; [done|].
  simpl. rewrite lookup_insert_eq. f_equal.
  apply (list_eq_same_length _ _ N); [done..|].
  intros k x y Hlt Hx Hy. rewrite Hk, column_offset in Hx by done. congruence.
Qed.

(** ** Native matrix to host array *)

(** X1: what [PyArray_FromMatrixXf] gives in either build for a matrix of at
    most [INT_MAX] elements: a two-dimensional float32 array of the shape of
    the matrix, in a block that was not in use (so never the storage of the
    matrix), holding the storage of the matrix slot by slot, and flagged
    Fortran-contiguous; the matrix is left as it was. *)
Lemma PyArray_FromMatrixXf_fresh_copy (mat : MatrixXf) (h : heap)
    (l : list cell) :
  h !! m_data mat = Some l ->
  length l = size mat ->
  (Z.of_nat (size mat) <= INT_MAX)%Z ->
  exists (a : PyArrayObject) (h' : heap),
    PyArray_FromMatrixXf mat h = Return a h'
    /\ (ob_data a ∉ dom h) /\ ob_data a <> m_data mat
    /\ ob_nd a = 2 /\ ob_dimensions a = [rows mat; cols mat]
    /\ ob_descr a = NPY_FLOAT
    /\ buffer_order a = Some ColMajor
    /\ h' !! ob_data a = Some l
    /\ h' !! m_data mat = Some l.
Proof.
  intros Hl Hlen Hint. eexists _, _.
  split; [exact (PyArray_FromMatrixXf_spec mat h l Hl Hlen Hint)|]. simpl.
  assert (Hf : fresh (dom h) ∉ dom h) by apply is_fresh.
  assert (Hp : fresh (dom h) <> m_data mat).
  { intros Heq. apply not_elem_of_dom in Hf. congruence. }
  repeat split; try done.
  - by rewrite lookup_insert_eq.
  - by rewrite lookup_insert_ne.
Qed.

(** ** There and back *)

(** The round trip in either build, for a matrix of at most [INT_MAX]
    elements: the matrix that comes back has the shape of the one that went
    in, and its coefficient [(i, j)] is the slot of the original storage that
    the column-major order assigns to [(i, j)]. *)
Lemma roundtrip_coefficients (mat : MatrixXf) (h : heap) (l : list cell) :
  h !! m_data mat = Some l ->
  length l = size mat ->
  (Z.of_nat (size mat) <= INT_MAX)%Z ->
  exists (a : PyArrayObject) (h1 : heap) (mat' : MatrixXf) (l' : list cell),
    PyArray_FromMatrixXf mat h = Return a h1
    /\ PyArray_ToMatrixXf a h1 = Return mat' (<[m_data mat' := l']> h1)
    /\ rows mat' = rows mat /\ cols mat' = cols mat
    /\ length l' = size mat
    /\ forall k, k < size mat ->
         l' !! k = l !! coeff_offset ColMajor (rows mat) (cols mat)
                      (slot_row DefaultOrder (rows mat) (cols mat) k)
                      (slot_col DefaultOrder (rows mat) (cols mat) k).
Proof.
  intros Hl Hlen Hint.
  pose proof (PyArray_FromMatrixXf_spec mat h l Hl Hlen Hint) as Hfrom.
  set (a := {| ob_data := fresh (dom h); ob_nd := 2;
               ob_dimensions := [rows mat; cols mat];
               ob_descr := NPY_FLOAT; ob_flags := host_flags |}) in *.
  set (h1 := <[fresh (dom h) := l]> h) in *.
  destruct (PyArray_ToMatrixXf_spec a ColMajor h1 l) as (l' & Hto & Hl' & Hk);
    try done.
  - by right.
  - unfold h1. simpl. by rewrite lookup_insert_eq.
  - change (buffer_rows a * buffer_cols a) with (size mat). lia.
  - change (buffer_rows a) with (rows mat) in *.
    change (buffer_cols a) with (cols mat) in *.
    exists a, h1. eexists _, l'. split; [exact Hfrom|]. split; [exact Hto|].
    done.
Qed.

(** X2: in the column-major build the round trip gives back the storage of
    a matrix of at most [INT_MAX] elements as it was. *)
Lemma roundtrip_column_major (mat : MatrixXf) (h : heap) (l : list cell) :
  EIGEN_DEFAULT_TO_ROW_MAJOR = false ->
  h !! m_data mat = Some l ->
  length l = size mat ->
  (Z.of_nat (size mat) <= INT_MAX)%Z ->
  exists (a : PyArrayObject) (h1 : heap) (mat' : MatrixXf) (h2 : heap),
    PyArray_FromMatrixXf mat h = Return a h1
    /\ PyArray_ToMatrixXf a h1 = Return mat' h2
    /\ rows mat' = rows mat /\ cols mat' = cols mat
    /\ h2 !! m_data mat' = Some l.
Proof.
  intros Hbuild Hl Hlen Hint.
  destruct (roundtrip_coefficients mat h l Hl Hlen Hint)
    as (a & h1 & mat' & l' & Hfrom & Hto & Hr & Hc & Hl' & Hk).
  exists a, h1, mat'. eexists. split; [exact Hfrom|]. split; [exact Hto|].
  split; [done|]. split; [done|]. rewrite lookup_insert_eq. f_equal.
  apply (list_eq_same_length _ _ (size mat)); [done..|].
  intros k x y Hlt Hx Hy. rewrite Hk in Hx by done.
  unfold DefaultOrder in Hx. rewrite Hbuild in Hx.
  rewrite coeff_offset_slot in Hx by done. congruence.
Qed.

(** ** Empty matrices and buffers *)

(** C9: a matrix with no rows or no columns converts to an empty
    two-dimensional float32 array of its shape, and a float32 buffer (of rank
    1 or 2, as a buffer of the data model is) with a contiguity flag and a
    dimension of size zero converts to an empty matrix of its shape; both
    calls return. *)
Theorem zero_size_accepted :
  (forall (mat : MatrixXf) (h : heap),
     rows mat = 0 \/ cols mat = 0 ->
     exists (a : PyArrayObject) (h' : heap),
       PyArray_FromMatrixXf mat h = Return a h'
       /\ ob_nd a = 2 /\ ob_dimensions a = [rows mat; cols mat]
       /\ ob_descr a = NPY_FLOAT
       /\ h' !! ob_data a = Some [])
  /\ (forall (a : PyArrayObject) (h : heap),
       ob_descr a = NPY_FLOAT ->
       ob_nd a = 1 \/ ob_nd a = 2 ->
       length (ob_dimensions a) = ob_nd a ->
       flag_set (ob_flags a) NPY_F_CONTIGUOUS = true
       \/ flag_set (ob_flags a) NPY_C_CONTIGUOUS = true ->
       0 ∈ ob_dimensions a ->
       exists (mat : MatrixXf) (h' : heap),
         PyArray_ToMatrixXf a h = Return mat h'
         /\ rows mat = buffer_rows a /\ cols mat = buffer_cols a
         /\ size mat = 0
         /\ h' !! m_data mat = Some []).
Proof.
  split.
  - intros mat h H0.
    assert (Hsz : size mat = 0) by (unfold size, rows, cols in *; nia).
    assert (Hn : foldr Nat.mul 1 (take 2 [rows mat; cols mat]) = 0).
    { unfold size, rows, cols in *. simpl. lia. }
    unfold PyArray_FromMatrixXf, PyArray_New, bind, new_block. cbv zeta.
    rewrite Hn, Hsz. simpl. eexists _, _. split; [reflexivity|]. simpl.
    by rewrite lookup_insert_eq.
  - intros a h Ht Hnd Hdims Hfl Hzero.
    destruct (buffer_order_contiguous a Hfl) as [o Ho].
    rewrite (PyArray_ToMatrixXf_valid a o Ht Hnd Ho).
    assert (H0 : buffer_rows a * buffer_cols a = 0).
    { unfold buffer_rows, buffer_cols, PyArray_DIM.
      destruct (ob_dimensions a) as [|d0 [|d1 [|? ?]]] eqn:Hd;
        destruct Hnd as [Hn | Hn]; rewrite Hn in *; simpl in *; try done.
      - apply list_elem_of_singleton in Hzero. lia.
      - apply elem_of_cons in Hzero as [<- | Hzero]; [lia|].
        apply list_elem_of_singleton in Hzero. lia. }
    rewrite MatrixXf_of_Map_empty by done.
    eexists _, _. split; [reflexivity|]. unfold size, rows, cols. simpl.
    by rewrite lookup_insert_eq.
Qed.

(** ** More on the two routines *)

Lemma single_line_offset o o' r c k :
  r <= 1 \/ c <= 1 -> k < r * c ->
  coeff_offset o r c (slot_row o' r c k) (slot_col o' r c k) = k.
Proof.
  intros Hline Hk.
  assert (Hcases : (r = 1 /\ k < c) \/ (c = 1 /\ k < r)) by nia.
  destruct Hcases as [[-> Hlt] | [-> Hlt]];
    destruct o, o'; unfold coeff_offset, slot_row, slot_col;
    rewrite ?Nat.div_1_r, ?Nat.mod_1_r, ?(Nat.div_small k _ Hlt),
      ?(Nat.mod_small k _ Hlt);
    lia.
Qed.

(** X3: in either build, a matrix with at most one row or at most one column
    (a vector, or an empty matrix) and at most [INT_MAX] elements comes back
    from the round trip with its shape and its storage as they were. *)
Theorem roundtrip_vectors (mat : MatrixXf) (h : heap) (l : list cell) :
  rows mat <= 1 \/ cols mat <= 1 ->
  h !! m_data mat = Some l ->
  length l = size mat ->
  (Z.of_nat (size mat) <= INT_MAX)%Z ->
  exists (a : PyArrayObject) (h1 : heap) (mat' : MatrixXf) (h2 : heap),
    PyArray_FromMatrixXf mat h = Return a h1
    /\ PyArray_ToMatrixXf a h1 = Return mat' h2
    /\ rows mat' = rows mat /\ cols mat' = cols mat
    /\ h2 !! m_data mat' = Some l.
Proof.
  intros Hline Hl Hlen Hint.
  destruct (roundtrip_coefficients mat h l Hl Hlen Hint)
    as (a & h1 & mat' & l' & Hfrom & Hto & Hr & Hc & Hl' & Hk).
  exists a, h1, mat'. eexists. split; [exact Hfrom|]. split; [exact Hto|].
  split; [done|]. split; [done|]. rewrite lookup_insert_eq. f_equal.
  apply (list_eq_same_length _ _ (size mat)); [done..|].
  intros k x y Hlt Hx Hy. rewrite Hk in Hx by done.
  rewrite single_line_offset in Hx by done. congruence.
Qed.

(** X4: in the row-major build a square matrix of at most [INT_MAX] elements
    comes back from the round trip transposed: coefficient [(i, j)] of the
    result is coefficient [(j, i)] of the matrix that went in. *)
Theorem roundtrip_row_major_transposes (mat : MatrixXf) (n : nat) (h : heap)
    (l : list cell) :
  EIGEN_DEFAULT_TO_ROW_MAJOR = true ->
  rows mat = n -> cols mat = n ->
  h !! m_data mat = Some l ->
  length l = size mat ->
  (Z.of_nat (size mat) <= INT_MAX)%Z ->
  exists (a : PyArrayObject) (h1 : heap) (mat' : MatrixXf) (l' : list cell),
    PyArray_FromMatrixXf mat h = Return a h1
    /\ PyArray_ToMatrixXf a h1 = Return mat' (<[m_data mat' := l']> h1)
    /\ rows mat' = n /\ cols mat' = n
    /\ forall i j, i < n -> j < n ->
         l' !! coeff_offset DefaultOrder n n i j
         = l !! coeff_offset DefaultOrder n n j i.
Proof.
  intros Hbuild Hrows Hcols Hl Hlen Hint.
  destruct (roundtrip_coefficients mat h l Hl Hlen Hint)
    as (a & h1 & mat' & l' & Hfrom & Hto & Hr & Hc & Hl' & Hk).
  exists a, h1, mat', l'. split; [exact Hfrom|]. split; [exact Hto|].
  split; [congruence|]. split; [congruence|]. intros i j Hi Hj.
  rewrite Hrows, Hcols in Hk. unfold size in Hk.
  change (m_rows mat) with (rows mat) in Hk.
  change (m_cols mat) with (cols mat) in Hk. rewrite Hrows, Hcols in Hk.
  rewrite Hk by (by apply coeff_offset_lt).
  rewrite slot_row_coeff_offset, slot_col_coeff_offset by done.
  unfold DefaultOrder. rewrite Hbuild. simpl. done.
Qed.

(** X5: the conversion does not depend on the layout of the buffer: a
    C-contiguous and a Fortran-contiguous float32 buffer of the same shape
    whose elements agree position by position convert, from the same memory,
    to the same matrix with the same storage. *)
Theorem PyArray_ToMatrixXf_layout_independent (ac af : PyArrayObject)
    (h : heap) (bc bf : list cell) :
  ob_descr ac = NPY_FLOAT -> ob_descr af = NPY_FLOAT ->
  ob_nd ac = 1 \/ ob_nd ac = 2 ->
  ob_nd af = 1 \/ ob_nd af = 2 ->
  buffer_order ac = Some RowMajor ->
  buffer_order af = Some ColMajor ->
  buffer_rows af = buffer_rows ac ->
  buffer_cols af = buffer_cols ac ->
  h !! ob_data ac = Some bc -> h !! ob_data af = Some bf ->
  length bc = buffer_rows ac * buffer_cols ac ->
  length bf = buffer_rows ac * buffer_cols ac ->
  (forall i j, i < buffer_rows ac -> j < buffer_cols ac ->
     bc !! coeff_offset RowMajor (buffer_rows ac) (buffer_cols ac) i j
     = bf !! coeff_offset ColMajor (buffer_rows ac) (buffer_cols ac) i j) ->
  exists (mat : MatrixXf) (h' : heap),
    PyArray_ToMatrixXf ac h = Return mat h'
    /\ PyArray_ToMatrixXf af h = Return mat h'.
Proof.
  intros Htc Htf Hndc Hndf Hoc Hof Hr Hc Hbc Hbf Hlc Hlf Hsame.
  destruct (PyArray_ToMatrixXf_spec ac RowMajor h bc Htc Hndc Hoc Hbc)
    as (l1 & Hrun1 & Hl1 & Hk1); [lia|].
  destruct (PyArray_ToMatrixXf_spec af ColMajor h bf Htf Hndf Hof Hbf)
    as (l2 & Hrun2 & Hl2 & Hk2); [rewrite Hr, Hc; lia|].
  rewrite Hr, Hc in *.
  assert (Heq : l2 = l1).
  { apply (list_eq_same_length _ _ (buffer_rows ac * buffer_cols ac));
      [done..|].
    intros k x y Hlt Hx Hy. rewrite Hk2 in Hx by done.
    rewrite Hk1 in Hy by done.
    rewrite Hsame in Hy by (by apply slot_row_lt || by apply slot_col_lt).
    congruence. }
  subst l2. eexists _, _. split; [exact Hrun1|exact Hrun2].
Qed.

(** X6: the transposed view converts to the transposed matrix: for a
    C-contiguous float32 buffer of shape r x c and the Fortran-contiguous
    buffer of shape c x r over the same data, coefficient [(j, i)] of the
    second matrix is coefficient [(i, j)] of the first. *)
Theorem PyArray_ToMatrixXf_transposed_view (a at' : PyArrayObject) (r c : nat)
    (h : heap) (b : list cell) :
  ob_descr a = NPY_FLOAT -> ob_descr at' = NPY_FLOAT ->
  ob_nd a = 2 -> ob_nd at' = 2 ->
  ob_dimensions a = [r; c] -> ob_dimensions at' = [c; r] ->
  buffer_order a = Some RowMajor ->
  buffer_order at' = Some ColMajor ->
  ob_data at' = ob_data a ->
  h !! ob_data a = Some b ->
  length b = r * c ->
  exists (mat mat' : MatrixXf) (l l' : list cell),
    PyArray_ToMatrixXf a h = Return mat (<[m_data mat := l]> h)
    /\ PyArray_ToMatrixXf at' h = Return mat' (<[m_data mat' := l']> h)
    /\ rows mat = r /\ cols mat = c /\ rows mat' = c /\ cols mat' = r
    /\ forall i j, i < r -> j < c ->
         l' !! coeff_offset DefaultOrder c r j i
         = l !! coeff_offset DefaultOrder r c i j.
Proof.
  intros Ht Ht' Hnd Hnd' Hd Hd' Ho Ho' Hdata Hb Hlen.
  assert (Hr : buffer_rows a = r /\ buffer_cols a = c).
  { unfold buffer_rows, buffer_cols, PyArray_DIM. by rewrite Hnd, Hd. }
  assert (Hr' : buffer_rows at' = c /\ buffer_cols at' = r).
  { unfold buffer_rows, buffer_cols, PyArray_DIM. by rewrite Hnd', Hd'. }
  destruct Hr as [Hr Hc]. destruct Hr' as [Hr' Hc'].
  destruct (PyArray_ToMatrixXf_spec a RowMajor h b Ht (or_intror Hnd) Ho Hb)
    as (l & Hrun & Hl & Hk); [rewrite Hr, Hc; lia|].
  rewrite <- Hdata in Hb.
  destruct (PyArray_ToMatrixXf_spec at' ColMajor h b Ht' (or_intror Hnd')
              Ho' Hb)
    as (l' & Hrun' & Hl' & Hk'); [rewrite Hr', Hc'; lia|].
  rewrite Hr, Hc in *. rewrite Hr', Hc' in *.
  eexists _, _, l, l'. split; [exact Hrun|]. split; [exact Hrun'|].
  simpl. split; [done|]. split; [done|]. split; [done|]. split; [done|].
  intros i j Hi Hj.
  rewrite Hk' by (by apply coeff_offset_lt).
  rewrite Hk by (by apply coeff_offset_lt).
  rewrite !slot_row_coeff_offset, !slot_col_coeff_offset by done.
  simpl. done.
Qed.

(** The copy loop writes to the destination block only, and never throws. *)
Lemma for_loop_copy_frame (src dst : loc) :
  forall n from (h : heap),
    match for_loop from n (fun i => c <- load src i ;; store dst i c) h with
    | Return _ h' => forall p, p <> dst -> h' !! p = h !! p
    | Throw _ _ => False
    | Undefined => True
    end.
Proof.
  induction n as [|n IH]; intros from h; [by simpl|].
  cbn [for_loop]. unfold bind at 1. unfold bind at 1. unfold load at 1.
  destruct (h !! src ≫= _) as [c|]; [|done].
  unfold store at 1. destruct (h !! dst) as [d|]; [|done].
  destruct (decide (from < length d)); [|done].
  destruct (Z.of_nat from <? INT_MAX)%Z; [|done].
  specialize (IH (S from) (<[dst := <[from := c]> d]> h)).
  destruct (for_loop _ _ _ _) as [u h'| |]; [|done..].
  intros p Hp. rewrite (IH p Hp). by rewrite lookup_insert_ne.
Qed.

(** X7: whatever array it is given, when [PyArray_ToMatrixXf] returns, the
    matrix is in a block that was not in use and every block that was in use
    is as it was: the conversion writes neither to the buffer nor to any
    other memory there was. *)
Theorem PyArray_ToMatrixXf_frame (a : PyArrayObject) (h h' : heap)
    (mat : MatrixXf) :
  PyArray_ToMatrixXf a h = Return mat h' ->
  (m_data mat ∉ dom h)
  /\ is_Some (h' !! m_data mat)
  /\ forall p, p ∈ dom h -> h' !! p = h !! p.
Proof.
  assert (Hmap : forall m : Map,
            MatrixXf_of_Map m h = Return mat h' ->
            (m_data mat ∉ dom h) /\ is_Some (h' !! m_data mat)
            /\ forall p, p ∈ dom h -> h' !! p = h !! p).
  { intros m. unfold MatrixXf_of_Map. cbv zeta.
    destruct (mapM _ _) as [l|]; [|done]. intros [= <- <-]. simpl.
    assert (Hf : fresh (dom h) ∉ dom h) by apply is_fresh.
    split; [done|]. split; [by rewrite lookup_insert_eq|].
    intros p Hp. rewrite lookup_insert_ne; [done|]. by intros <-. }
  unfold PyArray_ToMatrixXf, throw.
  repeat match goal with
         | |- context [if ?b then _ else _] => destruct b
         end; try done; apply Hmap.
Qed.

(** X8: whatever matrix it is given, [PyArray_FromMatrixXf] throws nothing,
    and when it returns, the data of the array is in a block that was not in
    use and every block that was in use, the storage of the matrix with
    them, is as it was. *)
Theorem PyArray_FromMatrixXf_frame (mat : MatrixXf) (h : heap) :
  (forall e h', PyArray_FromMatrixXf mat h <> Throw e h')
  /\ (forall a h',
        PyArray_FromMatrixXf mat h = Return a h' ->
        (ob_data a ∉ dom h)
        /\ is_Some (h' !! ob_data a)
        /\ forall p, p ∈ dom h -> h' !! p = h !! p).
Proof.
  set (p0 := fresh (dom h)).
  set (h0 := <[p0 := replicate
                       (foldr Nat.mul 1 (take 2 [rows mat; cols mat])) None]>
               h).
  assert (Hf : p0 ∉ dom h) by apply is_fresh.
  set (arr := {| ob_data := p0; ob_nd := 2;
                 ob_dimensions := [rows mat; cols mat];
                 ob_descr := NPY_FLOAT; ob_flags := host_flags |}).
  assert (Hrun : PyArray_FromMatrixXf mat h
                 = match for_loop 0 (size mat)
                           (fun i => c <- load (m_data mat) i ;; store p0 i c)
                           h0
                   with
                   | Return _ h' => Return arr h'
                   | Throw e h' => Throw e h'
                   | Undefined => Undefined
                   end).
  { unfold PyArray_FromMatrixXf.
    destruct EIGEN_DEFAULT_TO_ROW_MAJOR; reflexivity. }
  rewrite Hrun.
  pose proof (for_loop_copy_frame (m_data mat) p0 (size mat) 0 h0) as Hloop.
  assert (Hkeep : forall n from (h1 : heap),
            is_Some (h1 !! p0) ->
            match for_loop from n
                    (fun i => c <- load (m_data mat) i ;; store p0 i c) h1 with
            | Return _ h2 => is_Some (h2 !! p0)
            | _ => True
            end).
  { induction n as [|n IH]; intros from h1 Hs; [by simpl|].
    cbn [for_loop]. unfold bind at 1. unfold bind at 1. unfold load at 1.
    destruct (h1 !! m_data mat ≫= _) as [c|]; [|done].
    unfold store at 1. destruct (h1 !! p0) as [d|]; [|done].
    destruct (decide (from < length d)); [|done].
    destruct (Z.of_nat from <? INT_MAX)%Z; [|done].
    apply IH. by rewrite lookup_insert_eq. }
  specialize (Hkeep (size mat) 0 h0).
  destruct (for_loop _ _ _ h0) as [u h1| |]; [|done..].
  split; [done|]. intros a h' [= <- <-]. simpl.
  split; [done|]. split.
  - apply Hkeep. unfold h0. by rewrite lookup_insert_eq.
  - intros p Hp. rewrite Hloop by (by intros ->).
    unfold h0. rewrite lookup_insert_ne; [done|]. by intros <-.
Qed.

(** X9: in the column-major build, a valid buffer of at most [INT_MAX]
    elements that is converted to a matrix and back comes back as a new
    two-dimensional Fortran-ordered float32 array of the shape of the matrix
    (a vector of length N as N x 1), whose element [(i, j)] is element
    [(i, j)] of the buffer; the buffer is as it was. *)
Theorem host_roundtrip_column_major (a : PyArrayObject) (o : StorageOrder)
    (h : heap) (b : list cell) :
  EIGEN_DEFAULT_TO_ROW_MAJOR = false ->
  ob_descr a = NPY_FLOAT ->
  ob_nd a = 1 \/ ob_nd a = 2 ->
  buffer_order a = Some o ->
  h !! ob_data a = Some b ->
  length b = buffer_rows a * buffer_cols a ->
  (Z.of_nat (buffer_rows a * buffer_cols a) <= INT_MAX)%Z ->
  exists (mat : MatrixXf) (h1 : heap) (a' : PyArrayObject) (h2 : heap)
         (l : list cell),
    PyArray_ToMatrixXf a h = Return mat h1
    /\ PyArray_FromMatrixXf mat h1 = Return a' h2
    /\ ob_data a' <> ob_data a
    /\ ob_nd a' = 2
    /\ ob_dimensions a' = [buffer_rows a; buffer_cols a]
    /\ ob_descr a' = NPY_FLOAT
    /\ buffer_order a' = Some ColMajor
    /\ h2 !! ob_data a = Some b
    /\ h2 !! ob_data a' = Some l
    /\ forall i j, i < buffer_rows a -> j < buffer_cols a ->
         l !! coeff_offset ColMajor (buffer_rows a) (buffer_cols a) i j
         = b !! coeff_offset o (buffer_rows a) (buffer_cols a) i j.
Proof.
  intros Hbuild Ht Hnd Ho Hb Hlen Hint.
  destruct (PyArray_ToMatrixXf_spec a o h b Ht Hnd Ho Hb)
    as (l & Hto & Hl & Hk); [lia|].
  set (p := fresh (dom h)) in *.
  set (mat := {| m_data := p; m_rows := buffer_rows a;
                 m_cols := buffer_cols a |}) in *.
  set (h1 := <[p := l]> h) in *.
  assert (Hfp : p ∉ dom h) by apply is_fresh.
  assert (Hpa : p <> ob_data a).
  { intros Heq. apply not_elem_of_dom in Hfp. congruence. }
  pose proof (PyArray_FromMatrixXf_spec mat h1 l) as Hfrom.
  set (q := fresh (dom h1)) in *.
  assert (Hfq : q ∉ dom h1) by apply is_fresh.
  assert (Hqa : q <> ob_data a).
  { intros Heq. apply not_elem_of_dom in Hfq. unfold h1 in Hfq.
    rewrite Heq, lookup_insert_ne in Hfq by done. congruence. }
  exists mat, h1. eexists _, _, l. split; [exact Hto|].
  split.
  { apply Hfrom; [unfold h1; simpl; by rewrite lookup_insert_eq | done
                 | done]. }
  cbn [ob_data ob_nd ob_dimensions ob_descr].
  split; [done|]. split; [done|]. split; [done|]. split; [done|].
  split; [done|]. split.
  { rewrite lookup_insert_ne by done. unfold h1.
    by rewrite lookup_insert_ne. }
  split; [by rewrite lookup_insert_eq|].
  intros i j Hi Hj.
  rewrite Hk by (by apply coeff_offset_lt).
  unfold DefaultOrder. rewrite Hbuild.
  by rewrite slot_row_coeff_offset, slot_col_coeff_offset.
Qed.

(** X10: a one-dimensional float32 buffer of length N and a two-dimensional
    one of shape N x 1 over the same data convert to the same matrix,
    whichever contiguity flags the two carry. *)
Theorem vector_rank_irrelevant (a1 a2 : PyArrayObject) (N : nat) (h : heap)
    (b : list cell) :
  ob_descr a1 = NPY_FLOAT -> ob_descr a2 = NPY_FLOAT ->
  ob_nd a1 = 1 -> ob_nd a2 = 2 ->
  ob_dimensions a1 = [N] -> ob_dimensions a2 = [N; 1] ->
  flag_set (ob_flags a1) NPY_F_CONTIGUOUS = true
  \/ flag_set (ob_flags a1) NPY_C_CONTIGUOUS = true ->
  flag_set (ob_flags a2) NPY_F_CONTIGUOUS = true
  \/ flag_set (ob_flags a2) NPY_C_CONTIGUOUS = true ->
  ob_data a2 = ob_data a1 ->
  h !! ob_data a1 = Some b ->
  length b = N ->
  exists (mat : MatrixXf) (h' : heap),
    PyArray_ToMatrixXf a1 h = Return mat h'
    /\ PyArray_ToMatrixXf a2 h = Return mat h'
    /\ rows mat = N /\ cols mat = 1.
Proof.
  intros Ht1 Ht2 Hnd1 Hnd2 Hd1 Hd2 Hfl1 Hfl2 Hdata Hb Hlen.
  destruct (buffer_order_contiguous a1 Hfl1) as [o1 Ho1].
  destruct (buffer_order_contiguous a2 Hfl2) as [o2 Ho2].
  assert (Hs1 : buffer_rows a1 = N /\ buffer_cols a1 = 1).
  { unfold buffer_rows, buffer_cols, PyArray_DIM. by rewrite Hnd1, Hd1. }
  assert (Hs2 : buffer_rows a2 = N /\ buffer_cols a2 = 1).
  { unfold buffer_rows, buffer_cols, PyArray_DIM. by rewrite Hnd2, Hd2. }
  destruct Hs1 as [Hr1 Hc1]. destruct Hs2 as [Hr2 Hc2].
  destruct (PyArray_ToMatrixXf_spec a1 o1 h b Ht1 (or_introl Hnd1) Ho1 Hb)
    as (l1 & Hrun1 & Hl1 & Hk1); [rewrite Hr1, Hc1; lia|].
  rewrite <- Hdata in Hb.
  destruct (PyArray_ToMatrixXf_spec a2 o2 h b Ht2 (or_intror Hnd2) Ho2 Hb)
    as (l2 & Hrun2 & Hl2 & Hk2); [rewrite Hr2, Hc2; lia|].
  rewrite Hr1, Hc1 in *. rewrite Hr2, Hc2 in *. rewrite Nat.mul_1_r in *.
  assert (Heq : l2 = l1).
  { apply (list_eq_same_length _ _ N); [done..|].
    intros k x y Hlt Hx Hy. rewrite Hk2, column_offset in Hx by done.
    rewrite Hk1, column_offset in Hy by done. congruence. }
  subst l2. eexists _, _. split; [exact Hrun1|]. split; [exact Hrun2|]. done.
Qed.

(** The copy loop over more rounds than the counter can count is
    undefined. *)
Lemma for_loop_copy_overflow (src dst : loc) :
  forall n from (h : heap),
    (Z.of_nat from <= INT_MAX)%Z ->
    (INT_MAX < Z.of_nat (from + n))%Z ->
    for_loop from n (fun i => c <- load src i ;; store dst i c) h = Undefined.
Proof.
  induction n as [|n IH]; intros from h Hfrom Hover; [lia|].
  cbn [for_loop]. unfold bind at 1. unfold bind at 1. unfold load at 1.
  destruct (h !! src ≫= _) as [c|]; [|done].
  unfold store at 1. destruct (h !! dst) as [d|]; [|done].
  destruct (decide (from < length d)); [|done].
  destruct (Z.ltb_spec (Z.of_nat from) INT_MAX) as [Hlt|Hge]; [|done].
  apply IH; lia.
Qed.

(** X12: for a matrix of more than [INT_MAX] elements the behaviour of
    [PyArray_FromMatrixXf] is undefined: the [int] counter of the copy loop
    overflows, if the copy has not left the storage of the matrix before. *)
Theorem PyArray_FromMatrixXf_overflow (mat : MatrixXf) (h : heap) :
  (INT_MAX < Z.of_nat (size mat))%Z ->
  PyArray_FromMatrixXf mat h = Undefined.
Proof.
  intros Hover. unfold PyArray_FromMatrixXf, PyArray_New.
  unfold bind at 1. unfold bind at 1. unfold new_block. cbv zeta.
  unfold ret at 1. unfold bind at 1. unfold PyArray_DATA, data.
  cbn [ob_data].
  rewrite for_loop_copy_overflow; [done | unfold INT_MAX; lia | done].
Qed.

End Interop.

Arguments Return {float A} a h.
Arguments Throw {float A} e h.
Arguments Undefined {float A}.

(** * Concrete runs *)

(** C1 (row-major build): the matrix [[1, 2], [3, 4]] comes back from the
    round trip as [[1, 3], [2, 4]]. The array allocated on the way is
    Fortran-ordered although the storage copied into it is row-major. *)
Theorem roundtrip_row_major_2x2 :
  exists (a : PyArrayObject) h1 (mat' : MatrixXf) h2,
    PyArray_FromMatrixXf true mat_rm heap_rm = Return a h1
    /\ PyArray_ToMatrixXf true a h1 = Return mat' h2
    /\ rows mat' = 2 /\ cols mat' = 2
    /\ h2 !! m_data mat_rm = Some [Some 1; Some 2; Some 3; Some 4]%Z
    /\ h2 !! m_data mat' = Some [Some 1; Some 3; Some 2; Some 4]%Z.
Proof.
  eexists _, _, _, _.
  split; [vm_compute; reflexivity|]. split; [vm_compute; reflexivity|].
  repeat split; vm_compute; reflexivity.
Qed.

(** C3 (row-major build): the array made from the matrix [[1, 2], [3, 4]]
    holds the storage 1 2 3 4 of the matrix slot by slot, but is flagged
    Fortran-contiguous and not C-contiguous: its layout is column-major
    while the native default order is row-major. *)
Theorem host_array_row_major_2x2 :
  exists (a : PyArrayObject) h1,
    PyArray_FromMatrixXf true mat_rm heap_rm = Return a h1
    /\ DefaultOrder true = RowMajor
    /\ h1 !! ob_data a = Some [Some 1; Some 2; Some 3; Some 4]%Z
    /\ flag_set (ob_flags a) NPY_C_CONTIGUOUS = false
    /\ flag_set (ob_flags a) NPY_F_CONTIGUOUS = true
    /\ buffer_order a = Some ColMajor.
Proof.
  eexists _, _. split; [vm_compute; reflexivity|].
  repeat split; vm_compute; reflexivity.
Qed.

(** C2 fails as stated: the matrix made from the C-contiguous array
    [[1, 2], [3, 4]] lives in a block other than the buffer, and after
    [buffer[0] = 9] the buffer reads 9 while the matrix still reads 1. *)
Lemma view_claim_fails :
  exists (mat : MatrixXf) h1 h2,
    PyArray_ToMatrixXf false array_c heap_c = Return mat h1
    /\ m_data mat <> ob_data array_c
    /\ store (ob_data array_c) 0 (Some 9%Z) h1 = Return tt h2
    /\ load (ob_data array_c) 0 h2 = Return (Some 9%Z) h2
    /\ load (m_data mat) 0 h2 = Return (Some 1%Z) h2.
Proof.
  eexists _, _, _.
  split; [vm_compute; reflexivity|]. split; [by vm_compute|].
  split; [vm_compute; reflexivity|]. split; vm_compute; reflexivity.
Qed.


(** * The theorems above at the sample inputs *)

Lemma type_mismatch_rejected_witness :
  ob_descr array_double <> NPY_FLOAT
  /\ PyArray_ToMatrixXf false array_double heap_c
     = Throw (mkException "Can only handle arrays of float values.") heap_c.
Proof.
  assert (H : ob_descr array_double <> NPY_FLOAT) by (simpl; discriminate).
  split; [exact H|]. exact (type_mismatch_rejected false array_double heap_c H).
Defined.

Lemma rank_mismatch_rejected_witness :
  PyArray_ToMatrixXf false array_rank3 heap_c
  = Throw (mkException "Can only handle one- or two-dimensional arrays.")
          heap_c.
Proof.
  apply (rank_mismatch_rejected false array_rank3 heap_c);
    [reflexivity | simpl; lia | simpl; lia].
Defined.

Lemma non_contiguous_rejected_witness :
  PyArray_ToMatrixXf false array_slice heap_c
  = Throw (mkException "Data must be stored in contiguous memory.") heap_c.
Proof.
  apply (non_contiguous_rejected false array_slice heap_c);
    [reflexivity | right; reflexivity | reflexivity | reflexivity].
Defined.

Lemma conversion_failures_named_witness :
  exists v, violation array_slice = Some v
            /\ mkException "Data must be stored in contiguous memory."
               = mkException (message v)
            /\ heap_c = heap_c.
Proof.
  apply (proj1 (conversion_failures_named false array_slice heap_c)).
  vm_compute. reflexivity.
Defined.

Lemma checks_in_order_witness :
  PyArray_ToMatrixXf true
    {| ob_data := 1; ob_nd := 3; ob_dimensions := [2; 2; 1];
       ob_descr := NPY_DOUBLE; ob_flags := 0 |} heap_c
  = Throw (mkException "Can only handle arrays of float values.") heap_c
  /\ PyArray_ToMatrixXf true
       {| ob_data := 1; ob_nd := 3; ob_dimensions := [2; 2; 1];
          ob_descr := NPY_FLOAT; ob_flags := 0 |} heap_c
     = Throw (mkException "Can only handle one- or two-dimensional arrays.")
             heap_c.
Proof.
  split.
  - apply (proj1 (checks_in_order true 1 3 [2; 2; 1] NPY_DOUBLE 0 heap_c)).
    discriminate.
  - apply (proj2 (checks_in_order true 1 3 [2; 2; 1] NPY_FLOAT 0 heap_c));
      [reflexivity | lia | lia].
Defined.

Lemma PyArray_ToMatrixXf_copies_witness :
  exists (mat : MatrixXf) (l : list (option Z)),
    PyArray_ToMatrixXf false array_c heap_c = Return mat (<[m_data mat := l]> heap_c)
    /\ (m_data mat ∉ dom heap_c)
    /\ m_data mat <> ob_data array_c
    /\ rows mat = buffer_rows array_c /\ cols mat = buffer_cols array_c
    /\ (forall i j, i < rows mat -> j < cols mat ->
          l !! coeff_offset (DefaultOrder false) (rows mat) (cols mat) i j
          = [Some 1; Some 2; Some 3; Some 4]%Z
              !! coeff_offset RowMajor (rows mat) (cols mat) i j)
    /\ (forall i c h2,
          store (ob_data array_c) i c (<[m_data mat := l]> heap_c) = Return tt h2 ->
          h2 !! ob_data array_c
          = Some (<[i := c]> [Some 1; Some 2; Some 3; Some 4]%Z)
          /\ h2 !! m_data mat = Some l).
Proof.
  apply (PyArray_ToMatrixXf_copies false array_c RowMajor heap_c
           [Some 1; Some 2; Some 3; Some 4]%Z);
    [reflexivity | right; reflexivity | reflexivity | reflexivity | reflexivity].
Defined.

Lemma vector_is_column_witness :
  exists (mat : MatrixXf) h',
    PyArray_ToMatrixXf true array_v heap_v = Return mat h'
    /\ rows mat = 3 /\ cols mat = 1
    /\ h' !! m_data mat = Some [Some 7; Some 8; Some 9]%Z.
Proof.
  apply (vector_is_column true array_v 3 heap_v [Some 7; Some 8; Some 9]%Z);
    [reflexivity | reflexivity | reflexivity | left; reflexivity
    | reflexivity | reflexivity].
Defined.

Lemma zero_size_accepted_witness :
  (exists (a : PyArrayObject) h',
     PyArray_FromMatrixXf true mat_empty heap_empty = Return a h'
     /\ ob_nd a = 2 /\ ob_dimensions a = [rows mat_empty; cols mat_empty]
     /\ ob_descr a = NPY_FLOAT
     /\ h' !! ob_data a = Some [])
  /\ (exists (mat : MatrixXf) h',
        PyArray_ToMatrixXf true array_empty heap_empty = Return mat h'
        /\ rows mat = buffer_rows array_empty
        /\ cols mat = buffer_cols array_empty
        /\ size mat = 0
        /\ h' !! m_data mat = Some []).
Proof.
  split.
  - apply (proj1 (zero_size_accepted true) mat_empty heap_empty).
    left. reflexivity.
  - apply (proj2 (zero_size_accepted true) array_empty heap_empty);
      [reflexivity | right; reflexivity | reflexivity | left; reflexivity
      | constructor].
Defined.

Lemma PyArray_FromMatrixXf_fresh_copy_witness :
  exists (a : PyArrayObject) h',
    PyArray_FromMatrixXf false mat_rm heap_rm = Return a h'
    /\ (ob_data a ∉ dom heap_rm) /\ ob_data a <> m_data mat_rm
    /\ ob_nd a = 2 /\ ob_dimensions a = [rows mat_rm; cols mat_rm]
    /\ ob_descr a = NPY_FLOAT
    /\ buffer_order a = Some ColMajor
    /\ h' !! ob_data a = Some [Some 1; Some 2; Some 3; Some 4]%Z
    /\ h' !! m_data mat_rm = Some [Some 1; Some 2; Some 3; Some 4]%Z.
Proof.
  apply (PyArray_FromMatrixXf_fresh_copy false mat_rm heap_rm);
    [reflexivity | reflexivity | by vm_compute].
Defined.

Lemma roundtrip_column_major_witness :
  exists (a : PyArrayObject) h1 (mat' : MatrixXf) h2,
    PyArray_FromMatrixXf false mat_rm heap_rm = Return a h1
    /\ PyArray_ToMatrixXf false a h1 = Return mat' h2
    /\ rows mat' = rows mat_rm /\ cols mat' = cols mat_rm
    /\ h2 !! m_data mat' = Some [Some 1; Some 2; Some 3; Some 4]%Z.
Proof.
  apply (roundtrip_column_major false mat_rm heap_rm);
    [reflexivity | reflexivity | reflexivity | by vm_compute].
Defined.

Lemma roundtrip_vectors_witness :
  exists (a : PyArrayObject) h1 (mat' : MatrixXf) h2,
    PyArray_FromMatrixXf true mat_row heap_row = Return a h1
    /\ PyArray_ToMatrixXf true a h1 = Return mat' h2
    /\ rows mat' = rows mat_row /\ cols mat' = cols mat_row
    /\ h2 !! m_data mat' = Some [Some 5; Some 6; Some 7]%Z.
Proof.
  apply (roundtrip_vectors true mat_row heap_row);
    [left; simpl; lia | reflexivity | reflexivity | by vm_compute].
Defined.

Lemma roundtrip_row_major_transposes_witness :
  exists (a : PyArrayObject) h1 (mat' : MatrixXf) (l' : list (option Z)),
    PyArray_FromMatrixXf true mat_rm heap_rm = Return a h1
    /\ PyArray_ToMatrixXf true a h1 = Return mat' (<[m_data mat' := l']> h1)
    /\ rows mat' = 2 /\ cols mat' = 2
    /\ forall i j, i < 2 -> j < 2 ->
         l' !! coeff_offset (DefaultOrder true) 2 2 i j
         = [Some 1; Some 2; Some 3; Some 4]%Z
             !! coeff_offset (DefaultOrder true) 2 2 j i.
Proof.
  apply (roundtrip_row_major_transposes true mat_rm 2 heap_rm);
    [reflexivity | reflexivity | reflexivity | reflexivity | reflexivity
    | by vm_compute].
Defined.

Lemma PyArray_ToMatrixXf_layout_independent_witness :
  exists (mat : MatrixXf) h',
    PyArray_ToMatrixXf false array_23c heap_23 = Return mat h'
    /\ PyArray_ToMatrixXf false array_23f heap_23 = Return mat h'.
Proof.
  apply (PyArray_ToMatrixXf_layout_independent false array_23c array_23f
           heap_23
           [Some 1; Some 2; Some 3; Some 4; Some 5; Some 6]%Z
           [Some 1; Some 4; Some 2; Some 5; Some 3; Some 6]%Z);
    try reflexivity; try (right; reflexivity).
  intros i j Hi Hj.
  change (buffer_rows array_23c) with 2 in *.
  change (buffer_cols array_23c) with 3 in *.
  destruct i as [|[|i]]; [| |lia];
    (destruct j as [|[|[|j]]]; [reflexivity | reflexivity | reflexivity | lia]).
Defined.

Lemma PyArray_ToMatrixXf_transposed_view_witness :
  exists (mat mat' : MatrixXf) (l l' : list (option Z)),
    PyArray_ToMatrixXf false array_23c heap_23
    = Return mat (<[m_data mat := l]> heap_23)
    /\ PyArray_ToMatrixXf false array_32t heap_23
       = Return mat' (<[m_data mat' := l']> heap_23)
    /\ rows mat = 2 /\ cols mat = 3 /\ rows mat' = 3 /\ cols mat' = 2
    /\ forall i j, i < 2 -> j < 3 ->
         l' !! coeff_offset (DefaultOrder false) 3 2 j i
         = l !! coeff_offset (DefaultOrder false) 2 3 i j.
Proof.
  apply (PyArray_ToMatrixXf_transposed_view false array_23c array_32t 2 3
           heap_23 [Some 1; Some 2; Some 3; Some 4; Some 5; Some 6]%Z);
    reflexivity.
Defined.

Lemma PyArray_ToMatrixXf_frame_witness :
  exists (mat : MatrixXf) h',
    PyArray_ToMatrixXf false array_23c heap_23 = Return mat h'
    /\ (m_data mat ∉ dom heap_23)
    /\ is_Some (h' !! m_data mat)
    /\ forall p, p ∈ dom heap_23 -> h' !! p = heap_23 !! p.
Proof.
  eexists _, _. split; [vm_compute; reflexivity|].
  apply (PyArray_ToMatrixXf_frame false array_23c heap_23).
  vm_compute. reflexivity.
Defined.

Lemma PyArray_FromMatrixXf_frame_witness :
  exists (a : PyArrayObject) h',
    PyArray_FromMatrixXf true mat_rm heap_rm = Return a h'
    /\ (ob_data a ∉ dom heap_rm)
    /\ is_Some (h' !! ob_data a)
    /\ forall p, p ∈ dom heap_rm -> h' !! p = heap_rm !! p.
Proof.
  eexists _, _. split; [vm_compute; reflexivity|].
  apply (proj2 (PyArray_FromMatrixXf_frame true mat_rm heap_rm)).
  vm_compute. reflexivity.
Defined.

Lemma host_roundtrip_column_major_witness :
  exists (mat : MatrixXf) h1 (a' : PyArrayObject) h2 (l : list (option Z)),
    PyArray_ToMatrixXf false array_23c heap_23 = Return mat h1
    /\ PyArray_FromMatrixXf false mat h1 = Return a' h2
    /\ ob_data a' <> ob_data array_23c
    /\ ob_nd a' = 2
    /\ ob_dimensions a' = [buffer_rows array_23c; buffer_cols array_23c]
    /\ ob_descr a' = NPY_FLOAT
    /\ buffer_order a' = Some ColMajor
    /\ h2 !! ob_data array_23c
       = Some [Some 1; Some 2; Some 3; Some 4; Some 5; Some 6]%Z
    /\ h2 !! ob_data a' = Some l
    /\ forall i j, i < buffer_rows array_23c -> j < buffer_cols array_23c ->
         l !! coeff_offset ColMajor (buffer_rows array_23c)
                (buffer_cols array_23c) i j
         = [Some 1; Some 2; Some 3; Some 4; Some 5; Some 6]%Z
             !! coeff_offset RowMajor (buffer_rows array_23c)
                  (buffer_cols array_23c) i j.
Proof.
  apply (host_roundtrip_column_major false array_23c RowMajor heap_23);
    [reflexivity | reflexivity | right; reflexivity | reflexivity
    | reflexivity | reflexivity | by vm_compute].
Defined.

Lemma vector_rank_irrelevant_witness :
  exists (mat : MatrixXf) h',
    PyArray_ToMatrixXf false array_v heap_v = Return mat h'
    /\ PyArray_ToMatrixXf false array_v31 heap_v = Return mat h'
    /\ rows mat = 3 /\ cols mat = 1.
Proof.
  apply (vector_rank_irrelevant false array_v array_v31 3 heap_v
           [Some 7; Some 8; Some 9]%Z);
    try reflexivity; [left; reflexivity | right; reflexivity].
Defined.

Lemma PyArray_FromMatrixXf_overflow_witness :
  PyArray_FromMatrixXf false mat_huge heap_rm = Undefined.
Proof.
  apply (PyArray_FromMatrixXf_overflow false mat_huge heap_rm).
  unfold size, mat_huge. cbn [m_rows m_cols].
  rewrite Nat.mul_1_r, Z2Nat.id; unfold INT_MAX; lia.
Defined.
